(** * dynamicscoping: a dynamically bound variable with per-thread values

    Shallow embedding of [dynamicscoping/dynamicscoping.py].  A
    [DynamicVar] object is a record of its attributes; its methods are
    computations in a state-and-exception monad over that record.  The
    calling thread ([threading.current_thread()]) is an explicit argument
    of every method, and [threading.local()] is a finite map from threads
    to the value stored in the attribute [_value] of that thread's
    namespace (no entry: the attribute does not exist for that thread). *)

From Stdlib Require Import ZArith String Ascii DecimalString.
From stdpp Require Import base option gmap.

Open Scope string_scope.
Open Scope Z_scope.

(** ** Python values *)

(** Thread objects are compared with [is]; a thread is its identity. *)
Definition thread := positive.

(** Threads used in the examples below. *)
Definition MainThread : thread := 1%positive.
Definition Thread_1 : thread := 2%positive.

(** The objects a caller hands to the variable: [None], booleans,
    integers, strings, and the class object [UninitializedBinding] itself
    ([PyUninitializedBinding]), which the module uses as the default of
    [initial] and compares against with [is]. *)
Inductive pyval :=
| PyNone
| PyBool (b : bool)
| PyInt (z : Z)
| PyStr (s : string)
| PyUninitializedBinding.

#[global] Instance pyval_eq_dec : EqDecision pyval.
Proof. solve_decision. Defined.

(** [x is UninitializedBinding] *)
Definition is_UninitializedBinding (x : pyval) : bool :=
  match x with
  | PyUninitializedBinding => true
  | _ => false
  end.

(** Truth value of an object, as [or] tests it. *)
Definition truthy (x : pyval) : bool :=
  match x with
  | PyNone => false
  | PyBool b => b
  | PyInt z => negb (z =? 0)
  | PyStr s => negb (String.eqb s EmptyString)
  | PyUninitializedBinding => true
  end.

(** [x == n] for an integer [n] *)
Definition py_eq_int (x : pyval) (n : Z) : bool :=
  match x with
  | PyInt z => z =? n
  | PyBool b => (if b then 1 else 0) =? n
  | _ => false
  end.

(** [str(x)], which is what a [{}] field of [str.format] inserts. *)
Definition py_str (x : pyval) : string :=
  match x with
  | PyNone => "None"
  | PyBool b => if b then "True" else "False"
  | PyInt z => NilEmpty.string_of_int (Z.to_int z)
  | PyStr s => s
  | PyUninitializedBinding =>
      "<class 'dynamicscoping.dynamicscoping.UninitializedBinding'>"
  end.

(** Exceptions.  [UninitializedBinding msg] is an instance of the class;
    [AttributeError] is what reading a missing attribute raises;
    [Exception_ tag] stands for whatever else client code raises. *)
Inductive exn :=
| UninitializedBinding (msg : string)
| AttributeError (attr : string)
| Exception_ (tag : string).

(** ** The object *)

Record DynamicVar := mkDynamicVar {
  id_self : Z;                     (* id(self) *)
  _root_thread : thread;
  _local : gmap thread pyval;      (* self._local._value, per thread *)
  _name : pyval;
  _root_value : option pyval;      (* None: attribute not yet assigned *)
  class_name : string              (* self.__class__.__name__ *)
}.

(** ** State and exception monad *)

Inductive result (A : Type) :=
| Ok (a : A)
| Raise (e : exn).
Arguments Ok {A} a.
Arguments Raise {A} e.

Definition M (A : Type) := DynamicVar -> result A * DynamicVar.

Definition ret {A} (a : A) : M A := fun s => (Ok a, s).
Definition bind {A B} (m : M A) (k : A -> M B) : M B :=
  fun s => match m s with
           | (Ok a, s') => k a s'
           | (Raise e, s') => (Raise e, s')
           end.
Definition raise {A} (e : exn) : M A := fun s => (Raise e, s).
Definition get : M DynamicVar := fun s => (Ok s, s).

Declare Scope py_scope.
Delimit Scope py_scope with py.
Notation "x <- m ;; k" := (bind m (fun x => k))
  (at level 100, m at next level, right associativity) : py_scope.
Notation "m ;;; k" := (bind m (fun _ => k))
  (at level 100, right associativity) : py_scope.
Open Scope py_scope.

(** ** Attribute access *)

Definition with_local (l : gmap thread pyval) (self : DynamicVar) : DynamicVar :=
  mkDynamicVar (id_self self) (_root_thread self) l (_name self)
               (_root_value self) (class_name self).

Definition with_root_value (v : pyval) (self : DynamicVar) : DynamicVar :=
  mkDynamicVar (id_self self) (_root_thread self) (_local self) (_name self)
               (Some v) (class_name self).

Arguments with_local l self /.
Arguments with_root_value v self /.

(** [hasattr(self._local, '_value')] on thread [cur] *)
Definition hasattr_local_value (cur : thread) : M bool :=
  fun self => (Ok (bool_decide (is_Some (_local self !! cur))), self).

(** [self._local._value] on thread [cur] *)
Definition get_local_value (cur : thread) : M pyval :=
  fun self => match _local self !! cur with
              | Some v => (Ok v, self)
              | None => (Raise (AttributeError "_value"), self)
              end.

(** [self._local._value = v] on thread [cur] *)
Definition set_local_value (cur : thread) (v : pyval) : M unit :=
  fun self => (Ok tt, with_local (<[cur := v]> (_local self)) self).

(** [self._root_value] *)
Definition get_root_value : M pyval :=
  fun self => match _root_value self with
              | Some v => (Ok v, self)
              | None => (Raise (AttributeError "_root_value"), self)
              end.

(** [self._root_value = v] *)
Definition set_root_value (v : pyval) : M unit :=
  fun self => (Ok tt, with_root_value v self).

(** ** Methods of [DynamicVar] *)

(** [_set]: set the variable, handling the root thread specially. *)
Definition _set (cur : thread) (value : pyval) : M unit :=
  set_local_value cur value ;;;
  self <- get ;;
  if decide (cur = _root_thread self) then set_root_value value else ret tt.

(** [_value] (a property): a thread without a value of its own takes the
    root thread's. *)
Definition _value (cur : thread) : M pyval :=
  has <- hasattr_local_value cur ;;
  (if negb has
   then rv <- get_root_value ;; set_local_value cur rv
   else ret tt) ;;;
  get_local_value cur.

(** [is_bound] *)
Definition is_bound (cur : thread) : M bool :=
  v <- _value cur ;;
  if is_UninitializedBinding v then ret false else ret true.

(** [str.format] for templates whose only fields are [{}]: each field takes
    the next argument. *)
Fixpoint str_format (template : string) (args : list string) : string :=
  match template with
  | EmptyString => EmptyString
  | String "{" (String "}" rest) =>
      match args with
      | a :: args' => a ++ str_format rest args'
      | [] => str_format rest []
      end
  | String c rest => String c (str_format rest args)
  end.

(** The double quote character, as a one-character string. *)
Definition dquote : string :=
  String (Ascii false true false false false true false false) EmptyString.

(** [__repr__] *)
Definition __repr__ (cur : thread) : M string :=
  self <- get ;;
  if py_eq_int (_name self) (id_self self) then
    v <- _value cur ;;
    ret (str_format "<{} ({}) = {}>"
           [class_name self; py_str (PyInt (id_self self)); py_str v])
  else
    v <- _value cur ;;
    ret (str_format ("<{} " ++ dquote ++ "{}" ++ dquote ++ " ({}) = {}>")
           [class_name self; py_str (_name self);
            py_str (PyInt (id_self self)); py_str v]).

(** [value] (a property).  The message formats [self], which goes through
    [__repr__]. *)
Definition value (cur : thread) : M pyval :=
  b <- is_bound cur ;;
  if b then _value cur
  else r <- __repr__ cur ;;
       raise (UninitializedBinding (str_format "{} is unbound." [r])).

(** [__init__].  The three plain attributes are assigned first, then
    [_set] runs on the creating thread. *)
Definition __init__ (cur : thread) (self_id : Z) (cls : string)
    (initial name : pyval) : DynamicVar :=
  let self :=
    mkDynamicVar self_id cur ∅
                 (if truthy name then name else PyInt self_id)
                 None cls in
  snd (_set cur initial self).

(** [dynamically_bound] forwards its arguments to the class: an argument
    left out takes the default of [__init__]. *)
Definition dynamically_bound (cur : thread) (self_id : Z)
    (initial name : option pyval) : DynamicVar :=
  __init__ cur self_id "DynamicVar"
           (default PyUninitializedBinding initial) (default PyNone name).

(** ** The [with] statement over a generator context manager

    [binding] is a generator wrapped by [contextlib.contextmanager]: its
    body runs up to the [yield] on entry.  When the block ends normally the
    generator is resumed after the [yield]; when the block raises, the
    exception is thrown into the generator at the [yield], and since no
    [try] statement encloses that [yield] the generator ends there and the
    exception propagates. *)
Definition with_generator {X A} (before : M X) (after : X -> M unit)
    (block : M A) : M A :=
  x <- before ;;
  fun self =>
    match block self with
    | (Ok a, self') => (after x ;;; ret a) self'
    | (Raise e, self') => (Raise e, self')
    end.

(** [binding] up to its [yield]; the saved [old_value] is the generator's
    local variable. *)
Definition binding_enter (cur : thread) (value : pyval) : M pyval :=
  old_value <- _value cur ;;
  _set cur value ;;;
  ret old_value.

(** [binding] after its [yield] *)
Definition binding_exit (cur : thread) (old_value : pyval) : M unit :=
  _set cur old_value.

(** [with self.binding(value): block], on thread [cur] *)
Definition binding {A} (cur : thread) (value : pyval) (block : M A) : M A :=
  with_generator (binding_enter cur value) (binding_exit cur) block.

(** ** Histories of an object *)

(** What a method call on thread [t] can do to the object: every method
    touches the attributes only through [_value] and [_set]. *)
Inductive step_by (t : thread) : DynamicVar -> DynamicVar -> Prop :=
| step_resolve self : step_by t self (snd (_value t self))
| step_write v self : step_by t self (snd (_set t v self)).

(** Histories of method calls by the threads that [allowed] admits. *)
Inductive history (allowed : thread -> Prop) (self0 : DynamicVar) :
    DynamicVar -> Prop :=
| history_nil : history allowed self0 self0
| history_step t self self' :
    allowed t -> history allowed self0 self -> step_by t self self' ->
    history allowed self0 self'.

Definition any_thread : thread -> Prop := fun _ => True.

(** The objects a program can hold: built by [__init__], then used
    through the methods by any threads. *)
Definition reachable (self : DynamicVar) : Prop :=
  exists cur self_id cls initial name,
    history any_thread (__init__ cur self_id cls initial name) self.

(** Histories in which thread [t] takes no part. *)
Definition others_steps (t : thread) : DynamicVar -> DynamicVar -> Prop :=
  history (fun t' => t' <> t).

(** The root thread's own slot and [_root_value] hold the same value. *)
Definition coherent (self : DynamicVar) : Prop :=
  exists v, _root_value self = Some v /\
            _local self !! _root_thread self = Some v.

(** The value thread [t] works with: its own slot, else the root value. *)
Definition effective (t : thread) (self : DynamicVar) : option pyval :=
  match _local self !! t with
  | Some v => Some v
  | None => _root_value self
  end.

(** ** Client programs used in the statements *)

(** [len vs] nested [with self.binding(v)] blocks, one per element of
    [vs], outermost first.  Each block reads [self.value] on entry, runs
    the blocks nested in it, and reads [self.value] again; the reads are
    returned in the order they happen. *)
Fixpoint nested_reads (cur : thread) (vs : list pyval) : M (list pyval) :=
  match vs with
  | [] => ret []
  | v :: vs' =>
      binding cur v
        (r1 <- value cur ;;
         inner <- nested_reads cur vs' ;;
         r2 <- value cur ;;
         ret (r1 :: inner ++ [r2])%list)
  end.

(** No thread has a value other than [UninitializedBinding], and neither
    has the root. *)
Definition all_unbound (self : DynamicVar) : Prop :=
  _root_value self = Some PyUninitializedBinding /\
  forall t v, _local self !! t = Some v -> v = PyUninitializedBinding.

(** The values other than the class object [UninitializedBinding]. *)
Definition user_value (v : pyval) : Prop := is_UninitializedBinding v = false.

(** The object after the threads of [ts] have each resolved the value
    (through [value], [is_bound] or [__repr__]), in that order. *)
Definition after_reads (ts : list thread) (self : DynamicVar) : DynamicVar :=
  foldl (fun s t => snd (_value t s)) self ts.

(** The two textual forms of the interface table: without a name,
    [<TypeName (identity) = value>]; with one, the name in double quotes
    after the type name. *)
Definition repr_unnamed (cls : string) (ident : Z) (v : pyval) : string :=
  "<" ++ cls ++ " (" ++ py_str (PyInt ident) ++ ") = " ++ py_str v ++ ">".

Definition repr_named (cls : string) (name : pyval) (ident : Z) (v : pyval)
    : string :=
  "<" ++ cls ++ " " ++ dquote ++ py_str name ++ dquote
      ++ " (" ++ py_str (PyInt ident) ++ ") = " ++ py_str v ++ ">".

(** A second worker thread for the examples. *)
Definition Thread_2 : thread := 3%positive.

(** Every thread that has a slot holds [v] in it, and so does the root. *)
Definition all_hold (v : pyval) (self : DynamicVar) : Prop :=
  _root_value self = Some v /\
  forall t x, _local self !! t = Some x -> x = v.

(** The threads other than [t] and other than the root thread of [self]. *)
Definition other_worker (t : thread) (self : DynamicVar) : thread -> Prop :=
  fun t' => t' <> t /\ t' <> _root_thread self.

(** ** Sanity checks against the test suite *)

Example test_py_str : py_str (PyInt (-42)) = "-42".
Proof. reflexivity. Qed.

Example test_basic_use_case :
  fst (binding MainThread (PyInt 3) (value MainThread)
         (dynamically_bound MainThread 1000 None None))
  = Ok (PyInt 3).
Proof. vm_compute. reflexivity. Qed.

Example test_repr_named :
  fst (__repr__ MainThread
         (dynamically_bound MainThread 1000 (Some (PyInt 42)) (Some (PyStr "var"))))
  = Ok ("<DynamicVar " ++ dquote ++ "var" ++ dquote ++ " (1000) = 42>").
Proof. vm_compute. reflexivity. Qed.

Example test_uninitialized :
  fst (value MainThread (dynamically_bound MainThread 1000 None None))
  = Raise (UninitializedBinding
      "<DynamicVar (1000) = <class 'dynamicscoping.dynamicscoping.UninitializedBinding'>> is unbound.").
Proof. vm_compute. reflexivity. Qed.

Example test_check_binding_nested_twice :
  fst (nested_reads MainThread [PyInt 3; PyInt 5; PyInt 7]
         (dynamically_bound MainThread 1000 None None))
  = Ok [PyInt 3; PyInt 5; PyInt 7; PyInt 7; PyInt 5; PyInt 3].
Proof. vm_compute. reflexivity. Qed.

Example test_is_bound :
  let var := dynamically_bound MainThread 1000 None None in
  fst (is_bound MainThread var) = Ok false /\
  fst (binding MainThread (PyStr "hi") (is_bound MainThread) var) = Ok true /\
  fst (is_bound MainThread
         (snd (binding MainThread (PyStr "hi") (is_bound MainThread) var)))
  = Ok false.
Proof. vm_compute. auto. Qed.

Example test_threaded_inherit_root :
  let var := dynamically_bound MainThread 1000 None None in
  fst (binding MainThread (PyInt 12) (value Thread_1) var) = Ok (PyInt 12).
Proof. vm_compute. reflexivity. Qed.

(** ** Equations of the methods *)

Lemma _set_eq cur v self :
  _set cur v self =
  (Ok tt,
   if decide (cur = _root_thread self)
   then with_root_value v (with_local (<[cur := v]> (_local self)) self)
   else with_local (<[cur := v]> (_local self)) self).
Proof.
  unfold _set, bind, set_local_value, get, set_root_value, ret. simpl.
  destruct (decide (cur = _root_thread self)); reflexivity.
Qed.

Lemma _set_ok cur v self : _set cur v self = (Ok tt, snd (_set cur v self)).
Proof. rewrite _set_eq. reflexivity. Qed.

Lemma _value_eq t self :
  _value t self =
  match _local self !! t with
  | Some v => (Ok v, self)
  | None =>
      match _root_value self with
      | Some rv => (Ok rv, with_local (<[t := rv]> (_local self)) self)
      | None => (Raise (AttributeError "_root_value"), self)
      end
  end.
Proof.
  unfold _value, bind, hasattr_local_value, get_root_value, set_local_value,
    get_local_value, ret.
  destruct (_local self !! t) as [v|] eqn:Hl; simpl.
  - rewrite Hl. reflexivity.
  - destruct (_root_value self) as [rv|] eqn:Hr; simpl; [|reflexivity].
    rewrite lookup_insert_eq, <- Hr. reflexivity.
Qed.

Lemma with_local_id self : with_local (_local self) self = self.
Proof. destruct self; reflexivity. Qed.

Lemma DynamicVar_eq (a b : DynamicVar) :
  id_self a = id_self b -> _root_thread a = _root_thread b ->
  _local a = _local b -> _name a = _name b ->
  _root_value a = _root_value b -> class_name a = class_name b -> a = b.
Proof. destruct a, b; simpl; intros; subst; reflexivity. Qed.

(** ** The coherence invariant *)

Lemma coherent_init cur self_id cls initial name :
  coherent (__init__ cur self_id cls initial name).
Proof.
  unfold __init__. rewrite _set_eq. simpl.
  rewrite decide_True by reflexivity. simpl.
  exists initial. simpl. split; [reflexivity|]. apply lookup_insert_eq.
Qed.

Lemma coherent_set t v self : coherent self -> coherent (snd (_set t v self)).
Proof.
  intros (rv & Hr & Hl). rewrite _set_eq. simpl.
  destruct (decide (t = _root_thread self)) as [->|Hne]; simpl.
  - exists v. simpl. split; [reflexivity|]. apply lookup_insert_eq.
  - exists rv. simpl. split; [assumption|]. rewrite lookup_insert_ne; auto.
Qed.

Lemma coherent_value t self : coherent self -> coherent (snd (_value t self)).
Proof.
  intros (rv & Hr & Hl). rewrite _value_eq.
  destruct (_local self !! t) as [v|] eqn:Ht; simpl.
  - exists rv. auto.
  - rewrite Hr. simpl. exists rv. simpl. split; [auto|].
    rewrite lookup_insert_ne; [assumption|]. intros ->. congruence.
Qed.

Lemma coherent_step t self self' :
  step_by t self self' -> coherent self -> coherent self'.
Proof.
  intros [s | v s]; [apply coherent_value | apply coherent_set].
Qed.

Lemma history_coherent allowed self0 self :
  history allowed self0 self -> coherent self0 -> coherent self.
Proof.
  induction 1 as [| t s s' _ _ IH Hstep]; intros H0; [assumption|].
  eapply coherent_step; eauto.
Qed.

Lemma reachable_coherent self : reachable self -> coherent self.
Proof.
  intros (cur & self_id & cls & initial & name & Hh).
  eapply history_coherent; [eassumption | apply coherent_init].
Qed.

Lemma reachable_init cur self_id cls initial name :
  reachable (__init__ cur self_id cls initial name).
Proof. repeat eexists. constructor. Qed.

Lemma reachable_step t self self' :
  reachable self -> step_by t self self' -> reachable self'.
Proof.
  intros (cur & self_id & cls & initial & name & Hh) Hs.
  exists cur, self_id, cls, initial, name.
  eapply history_step; [exact I | eassumption | eassumption].
Qed.

(** ** Resolution *)

Lemma _value_slot t self v :
  _local self !! t = Some v -> _value t self = (Ok v, self).
Proof. intros H. rewrite _value_eq, H. reflexivity. Qed.

Lemma _value_inherit t self rv :
  _local self !! t = None -> _root_value self = Some rv ->
  _value t self = (Ok rv, with_local (<[t := rv]> (_local self)) self).
Proof. intros Hl Hr. rewrite _value_eq, Hl, Hr. reflexivity. Qed.

(** In a coherent object resolution succeeds, and leaves the thread with
    a slot holding what it returned. *)
Lemma _value_coherent t self :
  coherent self ->
  exists v, _value t self = (Ok v, snd (_value t self)) /\
            effective t self = Some v /\
            _local (snd (_value t self)) !! t = Some v.
Proof.
  intros (rv & Hr & _). unfold effective. rewrite _value_eq.
  destruct (_local self !! t) as [v|] eqn:Hl.
  - exists v. simpl. auto.
  - rewrite Hr. exists rv. simpl. rewrite lookup_insert_eq. auto.
Qed.

Lemma is_bound_slot t self v :
  _local self !! t = Some v ->
  is_bound t self = (Ok (negb (is_UninitializedBinding v)), self).
Proof.
  intros H. unfold is_bound, bind. rewrite (_value_slot _ _ _ H).
  destruct (is_UninitializedBinding v); reflexivity.
Qed.

Lemma __repr___slot t self v :
  _local self !! t = Some v ->
  __repr__ t self =
  (Ok (if py_eq_int (_name self) (id_self self)
       then repr_unnamed (class_name self) (id_self self) v
       else repr_named (class_name self) (_name self) (id_self self) v),
   self).
Proof.
  intros H. unfold __repr__, bind, get.
  destruct (py_eq_int (_name self) (id_self self));
    rewrite (_value_slot _ _ _ H); reflexivity.
Qed.

Lemma value_slot_bound t self v :
  _local self !! t = Some v -> is_UninitializedBinding v = false ->
  value t self = (Ok v, self).
Proof.
  intros H Hv. unfold value, bind. rewrite (is_bound_slot _ _ _ H), Hv.
  simpl. apply _value_slot, H.
Qed.

Lemma value_slot_unbound t self v :
  _local self !! t = Some v -> is_UninitializedBinding v = true ->
  exists msg, value t self = (Raise (UninitializedBinding msg), self).
Proof.
  intros H Hv. unfold value, bind. rewrite (is_bound_slot _ _ _ H), Hv.
  simpl. rewrite (__repr___slot _ _ _ H). eexists. reflexivity.
Qed.

(** ** Writes *)

Lemma _set_slot t v self : _local (snd (_set t v self)) !! t = Some v.
Proof.
  rewrite _set_eq. simpl.
  destruct (decide (t = _root_thread self)); simpl; apply lookup_insert_eq.
Qed.

Lemma _set_other t t' v self :
  t' <> t -> _local (snd (_set t' v self)) !! t = _local self !! t.
Proof.
  intros Hne. rewrite _set_eq. simpl.
  destruct (decide (t' = _root_thread self)); simpl;
    apply lookup_insert_ne, Hne.
Qed.

Lemma _value_other t t' self :
  t' <> t -> _local (snd (_value t' self)) !! t = _local self !! t.
Proof.
  intros Hne. rewrite _value_eq.
  destruct (_local self !! t'); [reflexivity|].
  destruct (_root_value self); [|reflexivity].
  simpl. apply lookup_insert_ne, Hne.
Qed.

(** Writing back the value a coherent object already holds for a thread
    changes nothing. *)
Lemma _set_restore t v old self :
  coherent self -> _local self !! t = Some old ->
  snd (_set t old (snd (_set t v self))) = self.
Proof.
  intros (rv & Hr & Hl) Ht. rewrite !_set_eq. simpl.
  destruct (decide (t = _root_thread self)) as [->|Hne]; simpl.
  - rewrite decide_True by reflexivity.
    apply DynamicVar_eq; simpl; try reflexivity.
    + rewrite insert_insert_eq. apply insert_id, Ht.
    + congruence.
  - rewrite decide_False by assumption.
    apply DynamicVar_eq; simpl; try reflexivity.
    rewrite insert_insert_eq. apply insert_id, Ht.
Qed.

(** ** Scopes *)

Lemma binding_enter_eq t v self old self0 :
  _value t self = (Ok old, self0) ->
  binding_enter t v self = (Ok old, snd (_set t v self0)).
Proof.
  intros H. unfold binding_enter, bind. rewrite H, _set_eq. reflexivity.
Qed.

Lemma binding_normal {A} t v (block : M A) self old self1 a self2 :
  binding_enter t v self = (Ok old, self1) ->
  block self1 = (Ok a, self2) ->
  binding t v block self = (Ok a, snd (_set t old self2)).
Proof.
  intros He Hb. unfold binding, with_generator, bind, binding_exit.
  rewrite He, Hb, _set_eq. reflexivity.
Qed.

Lemma binding_raise {A} t v (block : M A) self old self1 e self2 :
  binding_enter t v self = (Ok old, self1) ->
  block self1 = (Raise e, self2) ->
  binding t v block self = (Raise e, self2).
Proof.
  intros He Hb. unfold binding, with_generator, bind. rewrite He, Hb.
  reflexivity.
Qed.

(** ** Histories and slots *)

Lemma step_by_other t t' self self' :
  t' <> t -> step_by t' self self' -> _local self' !! t = _local self !! t.
Proof.
  intros Hne [s | v s]; [apply _value_other | apply _set_other]; exact Hne.
Qed.

Lemma others_steps_slot t self self' :
  others_steps t self self' -> _local self' !! t = _local self !! t.
Proof.
  induction 1 as [| t' s s' Hne _ IH Hstep]; [reflexivity|].
  rewrite <- IH. eapply step_by_other; eassumption.
Qed.

Lemma history_binding_enter allowed self0 self t v :
  allowed t -> history allowed self0 self ->
  history allowed self0 (snd (binding_enter t v self)).
Proof.
  intros Ht Hh. unfold binding_enter, bind.
  destruct (_value t self) as [[old|e] s1] eqn:Hv.
  - assert (Hs1 : s1 = snd (_value t self)) by (rewrite Hv; reflexivity).
    rewrite _set_ok. simpl.
    eapply history_step; [exact Ht | | apply step_write].
    rewrite Hs1. eapply history_step; [exact Ht | exact Hh | apply step_resolve].
  - assert (Hs1 : s1 = snd (_value t self)) by (rewrite Hv; reflexivity).
    simpl. rewrite Hs1.
    eapply history_step; [exact Ht | exact Hh | apply step_resolve].
Qed.

Lemma reachable_binding_enter self t v :
  reachable self -> reachable (snd (binding_enter t v self)).
Proof.
  intros (cur & self_id & cls & initial & name & Hh).
  exists cur, self_id, cls, initial, name.
  apply history_binding_enter; [exact I | exact Hh].
Qed.

Lemma reachable_value self t : reachable self -> reachable (snd (_value t self)).
Proof. intros H. eapply reachable_step; [exact H | apply step_resolve]. Qed.

Lemma reachable_dynamically_bound cur self_id initial name :
  reachable (dynamically_bound cur self_id initial name).
Proof. apply reachable_init. Qed.

(** ** Properties of the value store *)

(** C6: a write by thread [cur] ([_set], which scope entry and scope exit
    call) never fails and puts [v] in the slot of [cur]; when [cur] is the
    root thread it also makes [v] the root value, and otherwise it leaves
    the root value as it was.  Nothing else changes: not the slots of the
    other threads, nor the remaining attributes. *)
Theorem set_writes_slot_and_root_value (cur : thread) (v : pyval)
    (self : DynamicVar) :
  exists self',
    _set cur v self = (Ok tt, self') /\
    _local self' !! cur = Some v /\
    (cur = _root_thread self -> _root_value self' = Some v) /\
    (cur <> _root_thread self -> _root_value self' = _root_value self) /\
    (forall t, t <> cur -> _local self' !! t = _local self !! t) /\
    _root_thread self' = _root_thread self /\
    _name self' = _name self /\
    id_self self' = id_self self /\
    class_name self' = class_name self.
Proof.
  eexists. split; [apply _set_eq|].
  destruct (decide (cur = _root_thread self)) as [Heq|Hne]; simpl.
  - repeat split; try reflexivity; try contradiction.
    + apply lookup_insert_eq.
    + intros t Ht. apply lookup_insert_ne. congruence.
  - repeat split; try reflexivity; try contradiction.
    + apply lookup_insert_eq.
    + intros t Ht. apply lookup_insert_ne. congruence.
Qed.

(** C10: root-thread coherence.  [__init__] leaves the root value and the
    root thread's slot both holding [initial]; a write on the root thread
    leaves both holding the written value; and in every object a program
    can reach the two agree, so the root value exists and resolution on
    any thread succeeds, a thread without a slot getting the root value. *)
Theorem root_value_coherent (self : DynamicVar) (t : thread) :
  reachable self ->
  (forall cur self_id cls initial name,
     let new := __init__ cur self_id cls initial name in
     _root_thread new = cur /\
     _root_value new = Some initial /\
     _local new !! cur = Some initial) /\
  (forall v,
     let self' := snd (_set (_root_thread self) v self) in
     _root_value self' = Some v /\
     _local self' !! _root_thread self' = Some v) /\
  (exists rv,
     _root_value self = Some rv /\
     _local self !! _root_thread self = Some rv /\
     exists v, _value t self = (Ok v, snd (_value t self)) /\
               (_local self !! t = None -> v = rv)).
Proof.
  intros Hreach. split; [|split].
  - intros cur self_id cls initial name. unfold __init__.
    rewrite _set_eq. simpl. rewrite decide_True by reflexivity. simpl.
    repeat split. apply lookup_insert_eq.
  - intros v. rewrite _set_eq. simpl.
    rewrite decide_True by reflexivity. simpl.
    split; [reflexivity | apply lookup_insert_eq].
  - destruct (reachable_coherent _ Hreach) as (rv & Hr & Hl).
    exists rv. split; [assumption|]. split; [assumption|].
    rewrite _value_eq. destruct (_local self !! t) as [v|] eqn:Ht.
    + exists v. split; [reflexivity | discriminate].
    + rewrite Hr. exists rv. split; reflexivity.
Qed.

(** C7: in every object a program can reach and on every thread,
    [is_bound] returns a boolean and does not raise.  It resolves the value
    as [_value] does, with the same effect on the object, and answers
    whether that value is something other than [UninitializedBinding];
    [value] returns the resolved value when the answer is true and raises
    [UninitializedBinding] when it is false. *)
Theorem is_bound_total (cur : thread) (self : DynamicVar) :
  reachable self ->
  exists v self',
    _value cur self = (Ok v, self') /\
    is_bound cur self = (Ok (negb (is_UninitializedBinding v)), self') /\
    (is_UninitializedBinding v = false -> value cur self = (Ok v, self')) /\
    (is_UninitializedBinding v = true ->
     exists msg, value cur self = (Raise (UninitializedBinding msg), self')).
Proof.
  intros Hreach.
  destruct (_value_coherent cur self (reachable_coherent _ Hreach))
    as (v & Hv & _ & Hslot).
  exists v, (snd (_value cur self)). split; [assumption|].
  assert (Hb : is_bound cur self =
               (Ok (negb (is_UninitializedBinding v)), snd (_value cur self))).
  { unfold is_bound, bind. rewrite Hv.
    destruct (is_UninitializedBinding v); reflexivity. }
  split; [assumption|]. split.
  - intros Hlegal. unfold value, bind. rewrite Hb, Hlegal. simpl.
    apply _value_slot, Hslot.
  - intros Hunb. unfold value, bind. rewrite Hb, Hunb. simpl.
    rewrite (__repr___slot _ _ _ Hslot). eexists. reflexivity.
Qed.

(** C3: resolution takes one snapshot per thread.  A thread that has a
    slot gets the slot's content and the object is unchanged; a thread
    without one gets the current root value, which is stored in a new slot
    for it.  After that first resolution, whatever the other threads do,
    the root thread's writes to the root value included, the thread keeps
    reading the value it took. *)
Theorem value_snapshot_once (t : thread) (self later : DynamicVar) :
  reachable self ->
  others_steps t (snd (_value t self)) later ->
  (forall v, _local self !! t = Some v -> _value t self = (Ok v, self)) /\
  (_local self !! t = None ->
   exists rv, _root_value self = Some rv /\
     _value t self = (Ok rv, with_local (<[t := rv]> (_local self)) self)) /\
  (exists v, _value t self = (Ok v, snd (_value t self)) /\
             _value t later = (Ok v, later)).
Proof.
  intros Hreach Hothers.
  pose proof (reachable_coherent _ Hreach) as Hco.
  split; [|split].
  - intros v Hv. apply _value_slot, Hv.
  - intros Hnone. destruct Hco as (rv & Hr & _).
    exists rv. split; [assumption|]. apply _value_inherit; assumption.
  - destruct (_value_coherent t self Hco) as (v & Hv & _ & Hslot).
    exists v. split; [assumption|].
    apply _value_slot. rewrite (others_steps_slot _ _ _ Hothers). exact Hslot.
Qed.

(** A worker reads 12 while the root thread holds a binding of 12, and
    still reads 12 after the root thread has rebound the variable to 25. *)
Lemma value_snapshot_once_witness :
  let var := snd (binding_enter MainThread (PyInt 12)
                    (dynamically_bound MainThread 1000 None None)) in
  let later := snd (binding_enter MainThread (PyInt 25)
                      (snd (_value Thread_1 var))) in
  _root_value later = Some (PyInt 25) /\
  exists v, _value Thread_1 var = (Ok v, snd (_value Thread_1 var)) /\
            _value Thread_1 later = (Ok v, later).
Proof.
  split; [reflexivity|].
  apply (value_snapshot_once Thread_1
           (snd (binding_enter MainThread (PyInt 12)
                   (dynamically_bound MainThread 1000 None None)))
           (snd (binding_enter MainThread (PyInt 25)
                   (snd (_value Thread_1
                      (snd (binding_enter MainThread (PyInt 12)
                         (dynamically_bound MainThread 1000 None None)))))))).
  - apply reachable_binding_enter, reachable_dynamically_bound.
  - apply history_binding_enter; [discriminate | apply history_nil].
Defined.

Lemma is_bound_total_witness :
  let var := dynamically_bound MainThread 1000 None None in
  reachable var /\
  exists v self',
    _value Thread_1 var = (Ok v, self') /\
    is_bound Thread_1 var = (Ok (negb (is_UninitializedBinding v)), self') /\
    (is_UninitializedBinding v = false -> value Thread_1 var = (Ok v, self')) /\
    (is_UninitializedBinding v = true ->
     exists msg, value Thread_1 var = (Raise (UninitializedBinding msg), self')).
Proof.
  split; [apply reachable_dynamically_bound|].
  apply (is_bound_total Thread_1 (dynamically_bound MainThread 1000 None None)).
  apply reachable_dynamically_bound.
Defined.

Lemma root_value_coherent_witness :
  let var := snd (binding_enter MainThread (PyInt 12)
                    (dynamically_bound MainThread 1000 None None)) in
  reachable var /\
  exists rv,
    _root_value var = Some rv /\
    _local var !! _root_thread var = Some rv /\
    exists v, _value Thread_1 var = (Ok v, snd (_value Thread_1 var)) /\
              (_local var !! Thread_1 = None -> v = rv).
Proof.
  split; [apply reachable_binding_enter, reachable_dynamically_bound|].
  apply (root_value_coherent
           (snd (binding_enter MainThread (PyInt 12)
                   (dynamically_bound MainThread 1000 None None)))
           Thread_1).
  apply reachable_binding_enter, reachable_dynamically_bound.
Defined.

(** ** Nested scopes on one thread *)

(** With a slot in place, a chain of nested scopes reads each bound value
    on the way in and again on the way out, and hands the object back
    exactly as it found it. *)
Lemma nested_reads_slot cur vs :
  Forall user_value vs ->
  forall self old,
    coherent self -> _local self !! cur = Some old ->
    nested_reads cur vs self = (Ok (vs ++ rev vs)%list, self).
Proof.
  induction 1 as [| v vs' Hv _ IH]; intros self old Hco Hslot;
    [reflexivity|].
  cbn [nested_reads].
  pose proof (binding_enter_eq cur v self old self (_value_slot _ _ _ Hslot))
    as Henter.
  set (self1 := snd (_set cur v self)) in *.
  assert (Hslot1 : _local self1 !! cur = Some v) by apply _set_slot.
  assert (Hco1 : coherent self1) by (apply coherent_set, Hco).
  erewrite binding_normal; [| exact Henter |].
  - unfold self1. rewrite (_set_restore cur v old self Hco Hslot).
    reflexivity.
  - unfold bind. rewrite (value_slot_bound _ _ _ Hslot1 Hv).
    rewrite (IH self1 v Hco1 Hslot1).
    rewrite (value_slot_bound _ _ _ Hslot1 Hv).
    unfold ret. simpl. rewrite <- app_assoc. reflexivity.
Qed.

(** Entering a scope resolves the value first, so entering it from the
    object that resolution leaves gives the same run. *)
Lemma binding_after_resolve {A} cur v (block : M A) self old self0 :
  _value cur self = (Ok old, self0) -> _local self0 !! cur = Some old ->
  binding cur v block self = binding cur v block self0.
Proof.
  intros Hv Hslot. unfold binding, with_generator, bind.
  rewrite (binding_enter_eq _ v _ _ _ Hv).
  rewrite (binding_enter_eq _ v _ _ _ (_value_slot _ _ _ Hslot)).
  reflexivity.
Qed.

(** Binding the class object [UninitializedBinding] itself: the read
    inside the scope raises, the exception leaves the scope, and the
    variable, which held 1 before, is left at [UninitializedBinding]. *)
Lemma nested_bind_sentinel_raises :
  let var := dynamically_bound MainThread 1000 (Some (PyInt 1)) None in
  let run := nested_reads MainThread [PyUninitializedBinding] var in
  (exists msg, fst run = Raise (UninitializedBinding msg)) /\
  effective MainThread var = Some (PyInt 1) /\
  effective MainThread (snd run) = Some PyUninitializedBinding.
Proof.
  split; [eexists; vm_compute; reflexivity|].
  split; vm_compute; reflexivity.
Qed.

(** C2, amended: the bind/restore law on one thread, for any depth of nesting.
    Running the nested scopes for the values [vs] (none of them the
    [UninitializedBinding] class object) reads each value on entering its
    scope and again once the scopes nested in it have exited, innermost
    last in and first out; after all scopes have exited normally the
    object is the one the thread's first resolution left (the object
    itself at depth 0), so the thread's effective value, the result of
    [value] and the answer of [is_bound] are what they were before the
    chain. *)
Theorem nested_bind_restore (cur : thread) (vs : list pyval)
    (self : DynamicVar) :
  reachable self ->
  Forall user_value vs ->
  let final := snd (nested_reads cur vs self) in
  nested_reads cur vs self = (Ok (vs ++ rev vs)%list, final) /\
  final = match vs with [] => self | _ => snd (_value cur self) end /\
  effective cur final = effective cur self /\
  fst (value cur final) = fst (value cur self) /\
  fst (is_bound cur final) = fst (is_bound cur self).
Proof.
  intros Hreach Hvs.
  pose proof (reachable_coherent _ Hreach) as Hco.
  destruct (_value_coherent cur self Hco) as (old & Hv & Heff & Hslot).
  set (self0 := snd (_value cur self)) in *.
  assert (Hco0 : coherent self0) by (apply coherent_value, Hco).
  assert (Hrun : nested_reads cur vs self =
                 (Ok (vs ++ rev vs)%list,
                  match vs with [] => self | _ => self0 end)).
  { destruct vs as [| v vs']; [reflexivity|].
    pose proof (nested_reads_slot cur (v :: vs') Hvs self0 old Hco0 Hslot)
      as Hrun0.
    cbn [nested_reads] in *.
    rewrite (binding_after_resolve cur v _ self old self0 Hv Hslot).
    exact Hrun0. }
  intros final. unfold final. rewrite Hrun. simpl.
  split; [reflexivity|]. split; [reflexivity|].
  assert (Heff0 : effective cur self0 = effective cur self).
  { rewrite Heff. unfold effective. rewrite Hslot. reflexivity. }
  assert (Hval0 : fst (value cur self0) = fst (value cur self)).
  { unfold value, is_bound, bind. rewrite Hv. fold self0.
    rewrite (_value_slot _ _ _ Hslot). reflexivity. }
  assert (Hib0 : fst (is_bound cur self0) = fst (is_bound cur self)).
  { unfold is_bound, bind. rewrite Hv. fold self0.
    rewrite (_value_slot _ _ _ Hslot). reflexivity. }
  destruct vs; auto.
Qed.

Lemma nested_bind_restore_witness :
  let var := dynamically_bound MainThread 1000 None None in
  let vs := [PyInt 3; PyInt 5] in
  reachable var /\ Forall user_value vs /\
  nested_reads MainThread vs var
  = (Ok [PyInt 3; PyInt 5; PyInt 5; PyInt 3],
     snd (nested_reads MainThread vs var)) /\
  snd (nested_reads MainThread vs var) = snd (_value MainThread var) /\
  effective MainThread (snd (nested_reads MainThread vs var))
  = effective MainThread var /\
  fst (value MainThread (snd (nested_reads MainThread vs var)))
  = fst (value MainThread var) /\
  fst (is_bound MainThread (snd (nested_reads MainThread vs var)))
  = fst (is_bound MainThread var).
Proof.
  split; [apply reachable_dynamically_bound|].
  split; [repeat constructor|].
  apply (nested_bind_restore MainThread [PyInt 3; PyInt 5]
           (dynamically_bound MainThread 1000 None None)).
  - apply reachable_dynamically_bound.
  - repeat constructor.
Defined.

(** ** Leaving a scope *)

(** When the block ends normally the saved value is written back: the
    thread then resolves to the value it resolved to on entry, whatever the
    block did to the object. *)
Lemma binding_normal_restores {A} cur v (block : M A) self old self0 a self2 :
  _value cur self = (Ok old, self0) ->
  block (snd (_set cur v self0)) = (Ok a, self2) ->
  exists final,
    binding cur v block self = (Ok a, final) /\
    _value cur final = (Ok old, final).
Proof.
  intros Hv Hb. eexists. split.
  - eapply binding_normal; [apply binding_enter_eq, Hv | exact Hb].
  - apply _value_slot, _set_slot.
Qed.

(** When the block raises, the exception leaves the scope and the object
    stays as the block left it: nothing is written back. *)
Lemma binding_raise_skips_restore {A} cur v (block : M A) self old self0 e self2 :
  _value cur self = (Ok old, self0) ->
  block (snd (_set cur v self0)) = (Raise e, self2) ->
  binding cur v block self = (Raise e, self2).
Proof.
  intros Hv Hb. eapply binding_raise; [apply binding_enter_eq, Hv | exact Hb].
Qed.

(** C1, at a block that raises: a variable created without an initial
    value is unbound; a scope binding 5 whose block raises lets the
    exception through, and afterwards the variable is still bound to 5 on
    that thread, although it was unbound before the scope. *)
Theorem binding_block_raises_stays_bound :
  let var := dynamically_bound MainThread 1000 None None in
  let run := binding MainThread (PyInt 5) (raise (A := unit) (Exception_ "boom")) var in
  fst (is_bound MainThread var) = Ok false /\
  fst run = Raise (Exception_ "boom") /\
  fst (is_bound MainThread (snd run)) = Ok true /\
  fst (value MainThread (snd run)) = Ok (PyInt 5) /\
  _root_value (snd run) = Some (PyInt 5).
Proof. vm_compute. repeat split. Qed.

(** C5: a variable created without an initial value is unbound again on a
    thread once a scope that thread opened has been left normally: [value]
    raises [UninitializedBinding] and [is_bound] answers false, whatever
    value was bound and whatever the block did. *)
Theorem unbound_again_after_scope {A : Type} (root cur : thread)
    (self_id : Z) (name : option pyval) (v : pyval) (block : M A)
    (a : A) (self2 : DynamicVar) :
  let var := dynamically_bound root self_id None name in
  block (snd (binding_enter cur v var)) = (Ok a, self2) ->
  exists final,
    binding cur v block var = (Ok a, final) /\
    is_bound cur final = (Ok false, final) /\
    exists msg, value cur final = (Raise (UninitializedBinding msg), final).
Proof.
  intros var Hb.
  assert (Hco : coherent var) by apply coherent_init.
  assert (Hv : _value cur var = (Ok PyUninitializedBinding, snd (_value cur var))).
  { rewrite _value_eq. unfold var, dynamically_bound, __init__.
    rewrite _set_eq. simpl. rewrite decide_True by reflexivity. simpl.
    destruct (decide (root = cur)) as [->|Hne].
    - rewrite lookup_insert_eq. reflexivity.
    - rewrite lookup_insert_ne by assumption. rewrite lookup_empty.
      reflexivity. }
  pose proof (binding_enter_eq cur v var _ _ Hv) as Henter.
  rewrite Henter in Hb. simpl in Hb.
  exists (snd (_set cur PyUninitializedBinding self2)).
  assert (Hslot : _local (snd (_set cur PyUninitializedBinding self2)) !! cur
                  = Some PyUninitializedBinding) by apply _set_slot.
  split; [eapply binding_normal; eassumption|].
  split.
  - rewrite (is_bound_slot _ _ _ Hslot). reflexivity.
  - apply (value_slot_unbound _ _ _ Hslot). reflexivity.
Qed.

(** The scope of [test_deinitialized]: bind 5, read inside, read outside. *)
Lemma unbound_again_after_scope_witness :
  let var := dynamically_bound MainThread 1000 None None in
  value MainThread (snd (binding_enter MainThread (PyInt 5) var))
  = (Ok (PyInt 5), snd (binding_enter MainThread (PyInt 5) var)) /\
  exists final,
    binding MainThread (PyInt 5) (value MainThread) var
    = (Ok (PyInt 5), final) /\
    is_bound MainThread final = (Ok false, final) /\
    exists msg,
      value MainThread final = (Raise (UninitializedBinding msg), final).
Proof.
  split; [vm_compute; reflexivity|].
  apply (unbound_again_after_scope MainThread MainThread 1000 None (PyInt 5)
           (value MainThread) (PyInt 5)
           (snd (binding_enter MainThread (PyInt 5)
                   (dynamically_bound MainThread 1000 None None)))).
  vm_compute. reflexivity.
Defined.

(** ** Unbound variables *)

Lemma all_unbound_fresh root self_id name :
  all_unbound (dynamically_bound root self_id None name).
Proof.
  unfold dynamically_bound, __init__. rewrite _set_eq. simpl.
  rewrite decide_True by reflexivity. split; simpl; [reflexivity|].
  intros t v. destruct (decide (root = t)) as [->|Hne].
  - rewrite lookup_insert_eq. congruence.
  - rewrite lookup_insert_ne by assumption. rewrite lookup_empty.
    discriminate.
Qed.

Lemma all_unbound_value t self :
  all_unbound self -> all_unbound (snd (_value t self)).
Proof.
  intros [Hr Hl]. rewrite _value_eq.
  destruct (_local self !! t) as [v|] eqn:Ht; [split; assumption|].
  rewrite Hr. split; simpl; [assumption|].
  intros t' v'. destruct (decide (t = t')) as [->|Hne].
  - rewrite lookup_insert_eq. congruence.
  - rewrite lookup_insert_ne by assumption. apply Hl.
Qed.

Lemma coherent_after_reads ts self :
  coherent self -> coherent (after_reads ts self).
Proof.
  revert self. induction ts as [| t ts IH]; intros self H; [exact H|].
  apply IH, coherent_value, H.
Qed.

Lemma all_unbound_after_reads ts self :
  all_unbound self -> all_unbound (after_reads ts self).
Proof.
  revert self. induction ts as [| t ts IH]; intros self H; [exact H|].
  apply IH, all_unbound_value, H.
Qed.

Lemma effective_unbound_reads t self :
  coherent self -> effective t self = Some PyUninitializedBinding ->
  (exists msg, value t self
               = (Raise (UninitializedBinding msg), snd (_value t self))) /\
  is_bound t self = (Ok false, snd (_value t self)).
Proof.
  intros Hco Heff.
  destruct (_value_coherent t self Hco) as (v & Hv & Heff' & Hslot).
  assert (v = PyUninitializedBinding) as -> by congruence.
  assert (Hb : is_bound t self = (Ok false, snd (_value t self))).
  { unfold is_bound, bind. rewrite Hv. reflexivity. }
  split; [|exact Hb].
  unfold value, bind. rewrite Hb. simpl.
  rewrite (__repr___slot _ _ _ Hslot). eexists. reflexivity.
Qed.

Lemma all_unbound_effective t self :
  all_unbound self -> effective t self = Some PyUninitializedBinding.
Proof.
  intros [Hr Hl]. unfold effective.
  destruct (_local self !! t) as [v|] eqn:Ht; [|exact Hr].
  rewrite (Hl _ _ Ht). reflexivity.
Qed.

(** C4: a variable created without an initial value and not bound on the
    calling thread raises [UninitializedBinding] on [value] and answers
    false to [is_bound].  That is so on every thread of a variable that
    has only been read since it was created, and more generally in every
    object reached from such a variable in which the calling thread's
    effective value is [UninitializedBinding]. *)
Theorem unbound_variable_raises (root cur : thread) (self_id : Z)
    (name : option pyval) (ts : list thread) (self : DynamicVar) :
  let fresh := dynamically_bound root self_id None name in
  let unbound_on := fun s : DynamicVar =>
    (exists msg, value cur s
                 = (Raise (UninitializedBinding msg), snd (_value cur s))) /\
    is_bound cur s = (Ok false, snd (_value cur s)) in
  unbound_on (after_reads ts fresh) /\
  (history any_thread fresh self ->
   effective cur self = Some PyUninitializedBinding ->
   unbound_on self).
Proof.
  intros fresh unbound_on. split.
  - assert (Hun : all_unbound (after_reads ts fresh))
      by apply all_unbound_after_reads, all_unbound_fresh.
    apply effective_unbound_reads.
    + apply coherent_after_reads, coherent_init.
    + apply all_unbound_effective, Hun.
  - intros Hh Heff. apply effective_unbound_reads; [|exact Heff].
    eapply history_coherent; [exact Hh | apply coherent_init].
Qed.

(** ** The sentinel *)

(** Binding the class object [UninitializedBinding] itself: inside the
    scope [is_bound] answers false and [value] raises. *)
Lemma binding_sentinel_appears_unbound :
  let var := dynamically_bound MainThread 1000 None None in
  fst (binding MainThread PyUninitializedBinding (is_bound MainThread) var)
  = Ok false /\
  exists msg,
    fst (binding MainThread PyUninitializedBinding (value MainThread) var)
    = Raise (UninitializedBinding msg).
Proof. split; [reflexivity|]. eexists. vm_compute. reflexivity. Qed.

(** C8, amended: for every value [v] other than the class object
    [UninitializedBinding], inside a scope binding [v] on a thread
    [is_bound] returns true and [value] returns [v] without raising. *)
Theorem bound_user_value_visible (cur : thread) (v : pyval)
    (self : DynamicVar) :
  reachable self ->
  user_value v ->
  binding cur v (is_bound cur) self = (Ok true, snd (_value cur self)) /\
  binding cur v (value cur) self = (Ok v, snd (_value cur self)).
Proof.
  intros Hreach Hv.
  pose proof (reachable_coherent _ Hreach) as Hco.
  destruct (_value_coherent cur self Hco) as (old & Hold & _ & Hslot).
  set (self0 := snd (_value cur self)) in *.
  assert (Hco0 : coherent self0) by (apply coherent_value, Hco).
  pose proof (binding_enter_eq cur v self old self0 Hold) as Henter.
  assert (Hslot1 : _local (snd (_set cur v self0)) !! cur = Some v)
    by apply _set_slot.
  split.
  - erewrite binding_normal;
      [| exact Henter | apply (is_bound_slot _ _ _ Hslot1)].
    rewrite (_set_restore cur v old self0 Hco0 Hslot), Hv. reflexivity.
  - erewrite binding_normal;
      [| exact Henter | apply (value_slot_bound _ _ _ Hslot1 Hv)].
    rewrite (_set_restore cur v old self0 Hco0 Hslot). reflexivity.
Qed.

Lemma bound_user_value_visible_witness :
  let var := dynamically_bound MainThread 1000 None None in
  reachable var /\ user_value (PyStr "hi") /\
  binding MainThread (PyStr "hi") (is_bound MainThread) var
  = (Ok true, snd (_value MainThread var)) /\
  binding MainThread (PyStr "hi") (value MainThread) var
  = (Ok (PyStr "hi"), snd (_value MainThread var)).
Proof.
  split; [apply reachable_dynamically_bound|].
  split; [reflexivity|].
  apply (bound_user_value_visible MainThread (PyStr "hi")
           (dynamically_bound MainThread 1000 None None)).
  - apply reachable_dynamically_bound.
  - reflexivity.
Defined.

(** ** Display *)

Lemma step_by_fields t self self' :
  step_by t self self' ->
  _name self' = _name self /\ id_self self' = id_self self /\
  class_name self' = class_name self /\ _root_thread self' = _root_thread self.
Proof.
  intros [s | v s].
  - rewrite _value_eq. destruct (_local s !! t); [auto|].
    destruct (_root_value s); simpl; auto.
  - rewrite _set_eq. simpl.
    destruct (decide (t = _root_thread s)); simpl; auto.
Qed.

Lemma history_fields allowed self0 self :
  history allowed self0 self ->
  _name self = _name self0 /\ id_self self = id_self self0 /\
  class_name self = class_name self0 /\ _root_thread self = _root_thread self0.
Proof.
  induction 1 as [| t s s' _ _ IH Hstep]; [auto|].
  destruct (step_by_fields _ _ _ Hstep) as (-> & -> & -> & ->). exact IH.
Qed.

Lemma __init___fields cur self_id cls initial name :
  let self := __init__ cur self_id cls initial name in
  _name self = (if truthy name then name else PyInt self_id) /\
  id_self self = self_id /\ class_name self = cls /\ _root_thread self = cur.
Proof.
  unfold __init__. rewrite _set_eq. simpl.
  rewrite decide_True by reflexivity. simpl. auto.
Qed.

(** A name that is supplied but empty is displayed like no name. *)
Lemma repr_empty_name_is_unnamed :
  fst (__repr__ MainThread
         (dynamically_bound MainThread 1000 (Some (PyInt 42))
            (Some (PyStr EmptyString))))
  = Ok "<DynamicVar (1000) = 42>".
Proof. vm_compute. reflexivity. Qed.

(** C9, amended: the textual representation of a variable, at any point
    of its life and on any thread, is [<TypeName "name" (identity) = value>]
    when the name given at construction is truthy (not [None], not the
    empty string, not zero or [False]) and does not compare equal to the
    variable's identity, and [<TypeName (identity) = value>] otherwise;
    [value] is the text of the calling thread's effective value. *)
Theorem repr_format (cur root : thread) (self_id : Z) (cls : string)
    (initial name : pyval) (self : DynamicVar) :
  history any_thread (__init__ root self_id cls initial name) self ->
  exists v,
    effective cur self = Some v /\
    __repr__ cur self =
    (Ok (if truthy name && negb (py_eq_int name self_id)
         then repr_named cls name self_id v
         else repr_unnamed cls self_id v),
     snd (_value cur self)).
Proof.
  intros Hh.
  assert (Hco : coherent self)
    by (eapply history_coherent; [exact Hh | apply coherent_init]).
  destruct (history_fields _ _ _ Hh) as (Hname & Hid & Hcls & _).
  destruct (__init___fields root self_id cls initial name)
    as (Hname0 & Hid0 & Hcls0 & _).
  rewrite Hname0 in Hname. rewrite Hid0 in Hid. rewrite Hcls0 in Hcls.
  destruct (_value_coherent cur self Hco) as (v & Hv & Heff & _).
  exists v. split; [exact Heff|].
  unfold __repr__, bind, get. rewrite Hname, Hid, Hcls.
  destruct (truthy name) eqn:Htruthy; simpl.
  - destruct (py_eq_int name self_id); simpl; rewrite Hv; reflexivity.
  - rewrite Z.eqb_refl, Hv. reflexivity.
Qed.

Lemma repr_format_witness :
  let var := dynamically_bound MainThread 1000 None (Some (PyStr "var")) in
  let self := snd (binding_enter MainThread (PyInt 42) var) in
  history any_thread var self /\
  exists v,
    effective MainThread self = Some v /\
    __repr__ MainThread self =
    (Ok (repr_named "DynamicVar" (PyStr "var") 1000 v),
     snd (_value MainThread self)).
Proof.
  split; [apply history_binding_enter; [exact I | apply history_nil]|].
  apply (repr_format MainThread MainThread 1000 "DynamicVar"
           PyUninitializedBinding (PyStr "var")
           (snd (binding_enter MainThread (PyInt 42)
              (dynamically_bound MainThread 1000 None (Some (PyStr "var")))))).
  apply history_binding_enter; [exact I | apply history_nil].
Defined.

(** * Further properties of the methods *)

(** ** Reading leaves every thread's value alone *)

Lemma effective_after_value t t' self :
  effective t (snd (_value t' self)) = effective t self.
Proof.
  unfold effective. rewrite _value_eq.
  destruct (_local self !! t') as [x|] eqn:Hl'; [reflexivity|].
  destruct (_root_value self) as [rv|] eqn:Hr; simpl;
    [|rewrite Hr; reflexivity].
  destruct (decide (t' = t)) as [->|Hne].
  - rewrite lookup_insert_eq, Hl'. reflexivity.
  - rewrite lookup_insert_ne by assumption. rewrite Hr. reflexivity.
Qed.

Lemma _value_again t self :
  _value t (snd (_value t self)) = (fst (_value t self), snd (_value t self)).
Proof.
  rewrite (_value_eq t self).
  destruct (_local self !! t) as [x|] eqn:Hl; simpl.
  - apply _value_slot, Hl.
  - destruct (_root_value self) as [rv|] eqn:Hr; simpl.
    + apply _value_slot. simpl. apply lookup_insert_eq.
    + rewrite _value_eq, Hl, Hr. reflexivity.
Qed.

Lemma is_bound_state t self : snd (is_bound t self) = snd (_value t self).
Proof.
  unfold is_bound, bind. destruct (_value t self) as [[v|e] s]; simpl;
    [destruct (is_UninitializedBinding v)|]; reflexivity.
Qed.

Lemma __repr___state t self : snd (__repr__ t self) = snd (_value t self).
Proof.
  unfold __repr__, bind, get.
  destruct (py_eq_int (_name self) (id_self self));
    destruct (_value t self) as [[v|e] s]; reflexivity.
Qed.

Lemma value_state t self : snd (value t self) = snd (_value t self).
Proof.
  unfold value, bind.
  pose proof (is_bound_state t self) as Hs.
  destruct (is_bound t self) as [[b|e] s]; simpl in *; [|exact Hs].
  subst s. destruct b.
  - rewrite _value_again. reflexivity.
  - pose proof (__repr___state t (snd (_value t self))) as Hr.
    rewrite _value_again in Hr. simpl in Hr.
    destruct (__repr__ t (snd (_value t self))) as [[r|e] s]; simpl in *;
      exact Hr.
Qed.

(** X1: the read operations ([value], [is_bound], [__repr__] and the
    resolution [_value] they share) never change the value any thread
    works with, the reading thread's included: whatever the object was,
    every thread's effective value after the read is what it was before. *)
Theorem reads_keep_every_effective_value (t t' : thread) (self : DynamicVar) :
  effective t (snd (_value t' self)) = effective t self /\
  effective t (snd (value t' self)) = effective t self /\
  effective t (snd (is_bound t' self)) = effective t self /\
  effective t (snd (__repr__ t' self)) = effective t self.
Proof.
  rewrite value_state, is_bound_state, __repr___state.
  repeat split; apply effective_after_value.
Qed.

(** ** What a history keeps *)

Lemma step_by_slot_kept t t' self self' :
  step_by t' self self' -> is_Some (_local self !! t) ->
  is_Some (_local self' !! t).
Proof.
  intros Hstep [x Hx]. destruct (decide (t' = t)) as [->|Hne].
  - destruct Hstep as [s | v s].
    + rewrite (_value_slot _ _ _ Hx). eauto.
    + rewrite _set_slot. eauto.
  - rewrite (step_by_other _ _ _ _ Hne Hstep). eauto.
Qed.

(** X2: no method ever removes a thread's slot: a thread that has a slot
    has one after any further calls by any threads (so it never goes back
    to inheriting from the root value). *)
Theorem slot_is_never_removed (allowed : thread -> Prop) (t : thread)
    (self self' : DynamicVar) :
  history allowed self self' ->
  is_Some (_local self !! t) ->
  is_Some (_local self' !! t).
Proof.
  induction 1 as [| t' s s' _ _ IH Hstep]; intros Hslot; [exact Hslot|].
  eapply step_by_slot_kept; [exact Hstep | apply IH, Hslot].
Qed.

Lemma slot_is_never_removed_witness :
  let var := dynamically_bound MainThread 1000 None None in
  let later := snd (binding_enter Thread_1 (PyInt 5) var) in
  history any_thread var later /\
  is_Some (_local var !! MainThread) /\
  is_Some (_local later !! MainThread).
Proof.
  split; [apply history_binding_enter; [exact I | apply history_nil]|].
  split; [eexists; reflexivity|].
  apply (slot_is_never_removed any_thread MainThread
           (dynamically_bound MainThread 1000 None None)
           (snd (binding_enter Thread_1 (PyInt 5)
                   (dynamically_bound MainThread 1000 None None)))).
  - apply history_binding_enter; [exact I | apply history_nil].
  - eexists. reflexivity.
Defined.

(** X3: the attributes assigned by [__init__] before it calls [_set] are
    never reassigned: throughout the life of a variable its root thread
    is the thread that created it, and its identity, class name and stored
    name ([name or id(self)]) are those fixed at creation. *)
Theorem creation_attributes_are_fixed (root : thread) (self_id : Z)
    (cls : string) (initial name : pyval) (self : DynamicVar) :
  history any_thread (__init__ root self_id cls initial name) self ->
  _root_thread self = root /\
  id_self self = self_id /\
  class_name self = cls /\
  _name self = (if truthy name then name else PyInt self_id).
Proof.
  intros Hh.
  destruct (history_fields _ _ _ Hh) as (Hname & Hid & Hcls & Hroot).
  destruct (__init___fields root self_id cls initial name)
    as (Hname0 & Hid0 & Hcls0 & Hroot0).
  rewrite Hname, Hid, Hcls, Hroot. auto.
Qed.

Lemma creation_attributes_are_fixed_witness :
  let var := __init__ MainThread 1000 "DynamicVar" PyUninitializedBinding
               PyNone in
  let later := snd (binding_enter Thread_1 (PyInt 5) var) in
  history any_thread var later /\
  _root_thread later = MainThread /\
  id_self later = 1000 /\
  class_name later = "DynamicVar" /\
  _name later = PyInt 1000.
Proof.
  split; [apply history_binding_enter; [exact I | apply history_nil]|].
  apply (creation_attributes_are_fixed MainThread 1000 "DynamicVar"
           PyUninitializedBinding PyNone
           (snd (binding_enter Thread_1 (PyInt 5)
                   (__init__ MainThread 1000 "DynamicVar"
                      PyUninitializedBinding PyNone)))).
  apply history_binding_enter; [exact I | apply history_nil].
Defined.

(** ** Threads do not disturb each other *)

Lemma step_by_worker_root_value t self self' :
  t <> _root_thread self -> step_by t self self' ->
  _root_value self' = _root_value self.
Proof.
  intros Hne Hstep. destruct Hstep as [s | v s].
  - rewrite _value_eq. destruct (_local s !! t); [reflexivity|].
    destruct (_root_value s) eqn:Hr; simpl; congruence.
  - rewrite _set_eq. simpl. rewrite decide_False by assumption. reflexivity.
Qed.

(** X4: calls made by threads other than the root thread change nothing
    another thread can see.  After any history of calls by threads that
    are neither [t] nor the root thread, the root value is what it was,
    and so are the slot and the effective value of [t]. *)
Theorem workers_do_not_affect_others (t : thread) (self self' : DynamicVar) :
  history (other_worker t self) self self' ->
  _root_value self' = _root_value self /\
  _local self' !! t = _local self !! t /\
  effective t self' = effective t self.
Proof.
  intros Hh.
  assert (H : _root_thread self' = _root_thread self /\
              _root_value self' = _root_value self /\
              _local self' !! t = _local self !! t).
  { induction Hh as [| t' s s' [Hnt Hnr] Hh (IHroot & IHrv & IHl) Hstep];
      [auto|].
    destruct (step_by_fields _ _ _ Hstep) as (_ & _ & _ & Hroot).
    split; [congruence|]. split.
    - rewrite <- IHrv. apply (step_by_worker_root_value t'); [|exact Hstep].
      rewrite IHroot. exact Hnr.
    - rewrite <- IHl. eapply step_by_other; eassumption. }
  destruct H as (_ & Hrv & Hl). split; [exact Hrv|]. split; [exact Hl|].
  unfold effective. rewrite Hl, Hrv. reflexivity.
Qed.

(** A worker binds 5 while another worker has not yet read: that other
    worker and the root thread still see the variable unbound. *)
Lemma workers_do_not_affect_others_witness :
  let var := dynamically_bound MainThread 1000 None None in
  let later := snd (binding_enter Thread_1 (PyInt 5) var) in
  history (other_worker Thread_2 var) var later /\
  _root_value later = _root_value var /\
  _local later !! Thread_2 = _local var !! Thread_2 /\
  effective Thread_2 later = effective Thread_2 var.
Proof.
  assert (Hh : history
                 (other_worker Thread_2
                    (dynamically_bound MainThread 1000 None None))
                 (dynamically_bound MainThread 1000 None None)
                 (snd (binding_enter Thread_1 (PyInt 5)
                         (dynamically_bound MainThread 1000 None None)))).
  { apply history_binding_enter; [|apply history_nil].
    split; discriminate. }
  split; [exact Hh|].
  exact (workers_do_not_affect_others Thread_2
           (dynamically_bound MainThread 1000 None None)
           (snd (binding_enter Thread_1 (PyInt 5)
                   (dynamically_bound MainThread 1000 None None)))
           Hh).
Defined.

(** X5: inside its scope a thread reads the value it bound, whatever the
    other threads do meanwhile, the root thread's rebinding included; and
    when the scope then exits, the thread is back at the value it had
    resolved on entry. *)
Theorem scope_value_survives_other_threads (cur : thread) (v : pyval)
    (self later : DynamicVar) :
  reachable self ->
  user_value v ->
  others_steps cur (snd (binding_enter cur v self)) later ->
  value cur later = (Ok v, later) /\
  is_bound cur later = (Ok true, later) /\
  exists old,
    fst (binding_enter cur v self) = Ok old /\
    effective cur self = Some old /\
    effective cur (snd (binding_exit cur old later)) = Some old.
Proof.
  intros Hreach Hv Hothers.
  pose proof (reachable_coherent _ Hreach) as Hco.
  destruct (_value_coherent cur self Hco) as (old & Hold & Heff & _).
  pose proof (binding_enter_eq cur v self old _ Hold) as Henter.
  rewrite Henter in Hothers. simpl in Hothers.
  assert (Hslot : _local later !! cur = Some v).
  { rewrite (others_steps_slot _ _ _ Hothers). apply _set_slot. }
  split; [apply value_slot_bound; assumption|].
  split; [rewrite (is_bound_slot _ _ _ Hslot), Hv; reflexivity|].
  exists old. rewrite Henter. split; [reflexivity|]. split; [exact Heff|].
  unfold binding_exit, effective. rewrite _set_slot. reflexivity.
Qed.

(** A worker binds 7; the root thread then binds 12; the worker still
    reads 7, and is unbound again once it leaves its scope. *)
Lemma scope_value_survives_other_threads_witness :
  let var := dynamically_bound MainThread 1000 None None in
  let later := snd (binding_enter MainThread (PyInt 12)
                      (snd (binding_enter Thread_1 (PyInt 7) var))) in
  reachable var /\ user_value (PyInt 7) /\
  others_steps Thread_1 (snd (binding_enter Thread_1 (PyInt 7) var)) later /\
  value Thread_1 later = (Ok (PyInt 7), later) /\
  is_bound Thread_1 later = (Ok true, later) /\
  exists old,
    fst (binding_enter Thread_1 (PyInt 7) var) = Ok old /\
    effective Thread_1 var = Some old /\
    effective Thread_1 (snd (binding_exit Thread_1 old later)) = Some old.
Proof.
  assert (Hh : others_steps Thread_1
                 (snd (binding_enter Thread_1 (PyInt 7)
                         (dynamically_bound MainThread 1000 None None)))
                 (snd (binding_enter MainThread (PyInt 12)
                         (snd (binding_enter Thread_1 (PyInt 7)
                            (dynamically_bound MainThread 1000 None None)))))).
  { apply history_binding_enter; [discriminate | apply history_nil]. }
  split; [apply reachable_dynamically_bound|].
  split; [reflexivity|]. split; [exact Hh|].
  exact (scope_value_survives_other_threads Thread_1 (PyInt 7)
           (dynamically_bound MainThread 1000 None None) _
           (reachable_dynamically_bound _ _ _ _) eq_refl Hh).
Defined.

(** ** Inheriting from the root thread *)

(** X6: a binding held by the root thread is what a thread without a slot
    gets.  Inside the root thread's scope such a thread resolves to the
    bound value: [is_bound] answers whether that value is something other
    than the class object [UninitializedBinding], and when it is, [value]
    returns it.  A root scope with an empty block leaves the object
    exactly as it was, so a thread reading for the first time only after
    the scope gets what it would have got before it. *)
Theorem root_binding_is_inherited (t : thread) (v : pyval)
    (self : DynamicVar) :
  reachable self ->
  _local self !! t = None ->
  let root := _root_thread self in
  let after := snd (binding root v (ret tt) self) in
  fst (binding root v (_value t) self) = Ok v /\
  fst (binding root v (is_bound t) self)
  = Ok (negb (is_UninitializedBinding v)) /\
  (user_value v -> fst (binding root v (value t) self) = Ok v) /\
  binding root v (ret tt) self = (Ok tt, self) /\
  _value t after = _value t self.
Proof.
  intros Hreach Hnone root after.
  destruct (reachable_coherent _ Hreach) as (rv & Hr & Hl).
  assert (Hco : coherent self) by (exists rv; auto).
  assert (Hne : root <> t) by (intros <-; unfold root in Hnone; congruence).
  pose proof (binding_enter_eq root v self rv self (_value_slot _ _ _ Hl))
    as Henter.
  set (self1 := snd (_set root v self)) in *.
  assert (Hempty : binding root v (ret tt) self = (Ok tt, self)).
  { erewrite binding_normal; [| exact Henter | reflexivity].
    unfold self1. rewrite (_set_restore root v rv self Hco Hl). reflexivity. }
  assert (Hnone1 : _local self1 !! t = None).
  { unfold self1. rewrite _set_other by exact Hne. exact Hnone. }
  assert (Hr1 : _root_value self1 = Some v).
  { unfold self1. rewrite _set_eq. simpl.
    unfold root. rewrite decide_True by reflexivity. reflexivity. }
  pose proof (_value_inherit t self1 v Hnone1 Hr1) as Hread.
  split; [|split; [|split; [|split; [exact Hempty|]]]].
  - erewrite binding_normal; [| exact Henter | exact Hread]. reflexivity.
  - assert (Hib : is_bound t self1
                  = (Ok (negb (is_UninitializedBinding v)),
                     with_local (<[t := v]> (_local self1)) self1)).
    { unfold is_bound, bind. rewrite Hread.
      destruct (is_UninitializedBinding v); reflexivity. }
    erewrite binding_normal; [| exact Henter | exact Hib]. reflexivity.
  - intros Hv.
    assert (Hval : value t self1
                   = (Ok v, with_local (<[t := v]> (_local self1)) self1)).
    { unfold value, is_bound, bind. rewrite Hread, Hv. simpl.
      apply _value_slot. simpl. apply lookup_insert_eq. }
    erewrite binding_normal; [| exact Henter | exact Hval]. reflexivity.
  - unfold after. rewrite Hempty. reflexivity.
Qed.

(** [test_threaded_inherit_root]: the root thread binds 12 and a thread
    that has not touched the variable reads 12. *)
Lemma root_binding_is_inherited_witness :
  let var := dynamically_bound MainThread 1000 None None in
  reachable var /\
  _local var !! Thread_1 = None /\
  fst (binding (_root_thread var) (PyInt 12) (_value Thread_1) var)
  = Ok (PyInt 12) /\
  fst (binding (_root_thread var) (PyInt 12) (is_bound Thread_1) var)
  = Ok true /\
  (user_value (PyInt 12) ->
   fst (binding (_root_thread var) (PyInt 12) (value Thread_1) var)
   = Ok (PyInt 12)) /\
  binding (_root_thread var) (PyInt 12) (ret tt) var = (Ok tt, var) /\
  _value Thread_1 (snd (binding (_root_thread var) (PyInt 12) (ret tt) var))
  = _value Thread_1 var.
Proof.
  split; [apply reachable_dynamically_bound|].
  split; [reflexivity|].
  exact (root_binding_is_inherited Thread_1 (PyInt 12)
           (dynamically_bound MainThread 1000 None None)
           (reachable_dynamically_bound _ _ _ _) eq_refl).
Defined.

(** ** Leaving a scope, in general *)

(** X7: when the block of a scope ends normally, the scope returns the
    block's result and writes back the value the thread had resolved on
    entry, whatever the block did to the variable in between (a block that
    left an inner scope through an exception, say).  Afterwards the
    thread's slot holds that value, its effective value and the answer of
    [is_bound] are what they were before the scope, and the slots of the
    other threads are as the block left them. *)
Theorem normal_exit_restores_entry_value {A : Type} (cur : thread)
    (v : pyval) (block : M A) (self : DynamicVar) (a : A)
    (self2 : DynamicVar) :
  reachable self ->
  block (snd (binding_enter cur v self)) = (Ok a, self2) ->
  exists final,
    binding cur v block self = (Ok a, final) /\
    _local final !! cur = effective cur self /\
    effective cur final = effective cur self /\
    fst (is_bound cur final) = fst (is_bound cur self) /\
    forall t, t <> cur -> _local final !! t = _local self2 !! t.
Proof.
  intros Hreach Hb.
  pose proof (reachable_coherent _ Hreach) as Hco.
  destruct (_value_coherent cur self Hco) as (old & Hold & Heff & _).
  pose proof (binding_enter_eq cur v self old _ Hold) as Henter.
  exists (snd (_set cur old self2)).
  assert (Hslot : _local (snd (_set cur old self2)) !! cur = Some old)
    by apply _set_slot.
  split; [eapply binding_normal; [exact Henter | rewrite Henter in Hb; exact Hb]|].
  split; [congruence|].
  split; [unfold effective at 1; rewrite Hslot; congruence|].
  split.
  - rewrite (is_bound_slot _ _ _ Hslot). unfold is_bound, bind.
    rewrite Hold. destruct (is_UninitializedBinding old); reflexivity.
  - intros t Hne. apply _set_other. congruence.
Qed.

(** The block leaves an inner scope through an exception, which skips that
    scope's write-back; the outer scope, ending normally, still puts the
    variable back to unbound. *)
Lemma normal_exit_restores_entry_value_witness :
  let var := dynamically_bound MainThread 1000 None None in
  let block : M unit := fun s =>
    (Ok tt,
     snd (binding MainThread (PyInt 5) (raise (A := unit) (Exception_ "boom")) s)) in
  reachable var /\
  (exists self2,
     block (snd (binding_enter MainThread (PyInt 3) var)) = (Ok tt, self2) /\
     _local self2 !! MainThread = Some (PyInt 5)) /\
  exists final,
    binding MainThread (PyInt 3) block var = (Ok tt, final) /\
    _local final !! MainThread = effective MainThread var /\
    effective MainThread final = effective MainThread var /\
    fst (is_bound MainThread final) = fst (is_bound MainThread var) /\
    forall t, t <> MainThread ->
      _local final !! t
      = _local (snd (block (snd (binding_enter MainThread (PyInt 3) var)))) !! t.
Proof.
  split; [apply reachable_dynamically_bound|].
  split; [eexists; split; reflexivity|].
  exact (normal_exit_restores_entry_value MainThread (PyInt 3)
           (fun s =>
              (Ok tt,
               snd (binding MainThread (PyInt 5)
                      (raise (A := unit) (Exception_ "boom")) s)))
           (dynamically_bound MainThread 1000 None None) tt _
           (reachable_dynamically_bound _ _ _ _) eq_refl).
Defined.

(** X8: when the block of a scope raises, the scope raises the very same
    exception and does nothing more to the object: the object is as the
    block left it.  In particular, if the block left the thread's slot at
    the bound value, the thread goes on reading that value after the
    scope. *)
Theorem exception_leaves_scope_unrestored {A : Type} (cur : thread)
    (v : pyval) (block : M A) (self : DynamicVar) (e : exn)
    (self2 : DynamicVar) :
  reachable self ->
  block (snd (binding_enter cur v self)) = (Raise e, self2) ->
  binding cur v block self = (Raise e, self2) /\
  (_local self2 !! cur = Some v ->
   is_bound cur self2 = (Ok (negb (is_UninitializedBinding v)), self2) /\
   effective cur self2 = Some v).
Proof.
  intros Hreach Hb.
  pose proof (reachable_coherent _ Hreach) as Hco.
  destruct (_value_coherent cur self Hco) as (old & Hold & _ & _).
  pose proof (binding_enter_eq cur v self old _ Hold) as Henter.
  split.
  - eapply binding_raise; [exact Henter | rewrite Henter in Hb; exact Hb].
  - intros Hslot. split; [apply is_bound_slot, Hslot|].
    unfold effective. rewrite Hslot. reflexivity.
Qed.

Lemma exception_leaves_scope_unrestored_witness :
  let var := dynamically_bound MainThread 1000 (Some (PyInt 1)) None in
  let entered := snd (binding_enter MainThread (PyInt 5) var) in
  reachable var /\
  raise (A := unit) (Exception_ "boom") entered
  = (Raise (Exception_ "boom"), entered) /\
  binding MainThread (PyInt 5) (raise (A := unit) (Exception_ "boom")) var
  = (Raise (Exception_ "boom"), entered) /\
  (_local entered !! MainThread = Some (PyInt 5) ->
   is_bound MainThread entered = (Ok true, entered) /\
   effective MainThread entered = Some (PyInt 5)).
Proof.
  split; [apply reachable_dynamically_bound|].
  split; [reflexivity|].
  exact (exception_leaves_scope_unrestored MainThread (PyInt 5)
           (raise (A := unit) (Exception_ "boom"))
           (dynamically_bound MainThread 1000 (Some (PyInt 1)) None)
           (Exception_ "boom") _
           (reachable_dynamically_bound _ _ _ _) eq_refl).
Defined.

(** ** Variables created with an initial value *)

Lemma all_hold_init root self_id cls v name :
  all_hold v (__init__ root self_id cls v name).
Proof.
  unfold __init__. rewrite _set_eq. simpl.
  rewrite decide_True by reflexivity. split; simpl; [reflexivity|].
  intros t x. destruct (decide (root = t)) as [->|Hne].
  - rewrite lookup_insert_eq. congruence.
  - rewrite lookup_insert_ne by assumption. rewrite lookup_empty.
    discriminate.
Qed.

Lemma all_hold_value v t self :
  all_hold v self -> all_hold v (snd (_value t self)).
Proof.
  intros [Hr Hl]. rewrite _value_eq.
  destruct (_local self !! t) as [x|] eqn:Ht; [split; assumption|].
  rewrite Hr. split; simpl; [assumption|].
  intros t' x'. destruct (decide (t = t')) as [->|Hne].
  - rewrite lookup_insert_eq. congruence.
  - rewrite lookup_insert_ne by assumption. apply Hl.
Qed.

Lemma all_hold_after_reads v ts self :
  all_hold v self -> all_hold v (after_reads ts self).
Proof.
  revert self. induction ts as [| t ts IH]; intros self H; [exact H|].
  apply IH, all_hold_value, H.
Qed.

Lemma all_hold_effective v t self :
  all_hold v self -> effective t self = Some v.
Proof.
  intros [Hr Hl]. unfold effective.
  destruct (_local self !! t) as [x|] eqn:Ht; [|exact Hr].
  rewrite (Hl _ _ Ht). reflexivity.
Qed.

(** X9: a variable created with an initial value other than the class
    object [UninitializedBinding] is bound to that value on every thread,
    the creating thread and the others alike, for as long as it is only
    read: [value] returns the initial value and [is_bound] returns true. *)
Theorem seeded_variable_is_bound_everywhere (root cur : thread) (self_id : Z)
    (cls : string) (initial name : pyval) (ts : list thread) :
  user_value initial ->
  let var := after_reads ts (__init__ root self_id cls initial name) in
  value cur var = (Ok initial, snd (_value cur var)) /\
  is_bound cur var = (Ok true, snd (_value cur var)).
Proof.
  intros Hv var.
  assert (Hall : all_hold initial var)
    by apply all_hold_after_reads, all_hold_init.
  assert (Hco : coherent var) by apply coherent_after_reads, coherent_init.
  destruct (_value_coherent cur var Hco) as (x & Hx & Heff & Hslot).
  rewrite (all_hold_effective _ cur _ Hall) in Heff.
  assert (x = initial) as -> by congruence.
  assert (Hb : is_bound cur var = (Ok true, snd (_value cur var))).
  { unfold is_bound, bind. rewrite Hx, Hv. reflexivity. }
  split; [|exact Hb].
  unfold value, bind. rewrite Hb. simpl. apply _value_slot, Hslot.
Qed.

Lemma seeded_variable_is_bound_everywhere_witness :
  let var := after_reads [Thread_1; MainThread]
               (__init__ MainThread 1000 "DynamicVar" (PyInt 42) PyNone) in
  user_value (PyInt 42) /\
  value Thread_2 var = (Ok (PyInt 42), snd (_value Thread_2 var)) /\
  is_bound Thread_2 var = (Ok true, snd (_value Thread_2 var)).
Proof.
  split; [reflexivity|].
  exact (seeded_variable_is_bound_everywhere MainThread Thread_2 1000
           "DynamicVar" (PyInt 42) PyNone [Thread_1; MainThread] eq_refl).
Defined.

(** ** The error message *)

(** X10: the exception [value] raises for an unbound variable carries the
    variable's own textual representation followed by [ is unbound.]; with
    no name given that is [<TypeName (identity) = ] and the text of the
    class object [UninitializedBinding], then [> is unbound.] *)
Theorem unbound_message_shows_repr (cur : thread) (self : DynamicVar) :
  reachable self ->
  effective cur self = Some PyUninitializedBinding ->
  exists r,
    fst (__repr__ cur self) = Ok r /\
    fst (value cur self) = Raise (UninitializedBinding (r ++ " is unbound.")) /\
    r = (if py_eq_int (_name self) (id_self self)
         then repr_unnamed (class_name self) (id_self self)
                PyUninitializedBinding
         else repr_named (class_name self) (_name self) (id_self self)
                PyUninitializedBinding).
Proof.
  intros Hreach Heff.
  pose proof (reachable_coherent _ Hreach) as Hco.
  destruct (_value_coherent cur self Hco) as (x & Hx & Heff' & Hslot).
  assert (x = PyUninitializedBinding) as -> by congruence.
  set (self0 := snd (_value cur self)) in *.
  pose proof (__repr___slot _ _ _ Hslot) as Hrepr0.
  destruct (step_by_fields cur self self0 (step_resolve cur self))
    as (Hname & Hid & Hcls & _).
  rewrite Hname, Hid, Hcls in Hrepr0.
  eexists. split; [|split; [|reflexivity]].
  - unfold __repr__, bind, get.
    destruct (py_eq_int (_name self) (id_self self)); rewrite Hx; reflexivity.
  - unfold value, is_bound, bind. rewrite Hx. simpl. fold self0.
    rewrite Hrepr0. reflexivity.
Qed.

Lemma unbound_message_shows_repr_witness :
  let var := dynamically_bound MainThread 1000 None (Some (PyStr "var")) in
  reachable var /\
  effective Thread_1 var = Some PyUninitializedBinding /\
  exists r,
    fst (__repr__ Thread_1 var) = Ok r /\
    fst (value Thread_1 var)
    = Raise (UninitializedBinding (r ++ " is unbound.")) /\
    r = repr_named "DynamicVar" (PyStr "var") 1000 PyUninitializedBinding.
Proof.
  split; [apply reachable_dynamically_bound|].
  split; [reflexivity|].
  exact (unbound_message_shows_repr Thread_1
           (dynamically_bound MainThread 1000 None (Some (PyStr "var")))
           (reachable_dynamically_bound _ _ _ _) eq_refl).
Defined.
